(** * nomade_native: the Linux plugin shim, embedded and verified

    The development follows [linux/nomade_native_plugin.cc]: the method
    dispatcher [nomade_native_plugin_handle_method_call], the platform
    version query [get_platform_version], the channel callback
    [method_call_cb] and [nomade_native_plugin_register_with_registrar].

    The program talks to three collaborators that are not part of the
    repository: the C library ([strcmp], [uname], [g_strdup_printf]), GObject
    reference counting and the Flutter Linux embedder.  They are modelled
    below, each next to the place where the plugin calls it. *)

From Stdlib Require Import ZArith String Ascii List Lia.
From stdpp Require Import base strings gmap.

Import ListNotations.
Local Open Scope Z_scope.
Local Open Scope string_scope.

(** ** C strings

    A [const char*] is modelled by the characters found in memory from the
    pointer on; a Rocq [string] plays that role and its end counts as a
    terminator.  The C string designated by the pointer is what precedes the
    first NUL. *)

Module CString.

Definition NUL : ascii := Ascii.zero.

Definition is_nul (c : ascii) : bool := Ascii.eqb c NUL.

(** The contents of the C string stored at [mem]. *)
Fixpoint c_str (mem : string) : string :=
  match mem with
  | EmptyString => EmptyString
  | String c rest => if is_nul c then EmptyString else String c (c_str rest)
  end.

(** A buffer without any NUL character. *)
Fixpoint nul_free (mem : string) : bool :=
  match mem with
  | EmptyString => true
  | String c rest => negb (is_nul c) && nul_free rest
  end.

(** [unsigned char] value of a character. *)
Definition uchar (c : ascii) : Z := Z.of_N (N_of_ascii c).

(** [strcmp]: walk both strings; stop at the first difference or at a common
    terminator; the result is the difference of the two [unsigned char]s. *)
Fixpoint strcmp (s1 s2 : string) : Z :=
  match s1, s2 with
  | EmptyString, EmptyString => 0
  | EmptyString, String c2 _ => uchar NUL - uchar c2
  | String c1 _, EmptyString => uchar c1 - uchar NUL
  | String c1 r1, String c2 r2 =>
      if Ascii.eqb c1 c2
      then (if is_nul c1 then 0 else strcmp r1 r2)
      else uchar c1 - uchar c2
  end.

(** [n] NUL characters: a zero-initialised [char\[n\]]. *)
Fixpoint zeroed (n : nat) : string :=
  match n with
  | O => EmptyString
  | S k => String NUL (zeroed k)
  end.

End CString.

Export CString.

(** ** The C library: formatted output and [uname] *)

Module Libc.

(** [printf]-style formatting over the two directives the plugin's format
    strings can contain: [%s] (a [char*] argument, copied up to its
    terminator) and [%%].  [None] stands for undefined behaviour: any other
    directive, or a [%s] without an argument. *)
Fixpoint format_string (format : string) (args : list string) : option string :=
  match format with
  | EmptyString => Some EmptyString
  | String c rest =>
      if is_nul c then Some EmptyString
      else if Ascii.eqb c "%"%char then
        match rest with
        | EmptyString => None
        | String d rest' =>
            if Ascii.eqb d "s"%char then
              match args with
              | [] => None
              | p :: args' =>
                  option_map (String.append (c_str p)) (format_string rest' args')
              end
            else if Ascii.eqb d "%"%char then
              option_map (String "%"%char) (format_string rest' args)
            else None
        end
      else option_map (String c) (format_string rest args)
  end.

(** [_UTSNAME_LENGTH] of <sys/utsname.h>. *)
Definition _UTSNAME_LENGTH : nat := 65.

(** [struct utsname]: six [char\[_UTSNAME_LENGTH\]] arrays. *)
Record utsname : Type := mk_utsname {
  sysname : string;
  nodename : string;
  release : string;
  version : string;
  machine : string;
  domainname : string
}.

(** [struct utsname uname_data = {};] *)
Definition utsname_zero : utsname :=
  let z := zeroed _UTSNAME_LENGTH in mk_utsname z z z z z z.

(** What the kernel does with a [uname] call: it either fills the caller's
    structure with its own (NUL-terminated) arrays and returns 0, or returns
    -1 with an error number and leaves the structure as it was. *)
Inductive uname_outcome : Type :=
  | UnameOk (kernel_uts : utsname)
  | UnameFail (errno : Z).

Record os_state : Type := mk_os { os_uname : uname_outcome }.

(** Return value and new contents of the buffer for [uname(&buf)]. *)
Definition uname_result (os : os_state) (buf : utsname) : Z * utsname :=
  match os_uname os with
  | UnameOk kernel_uts => (0, kernel_uts)
  | UnameFail _ => (-1, buf)
  end.

End Libc.

Export Libc.

(** ** Flutter Linux embedder: values, calls, responses, channels *)

Module Fl.

#[local] Set Warnings "-register-all".

(** [FlValue], without its floating point and typed-list kinds. *)
Inductive FlValue : Type :=
  | FlNull
  | FlBool (b : bool)
  | FlInt (i : Z)
  | FlString (s : string)
  | FlList (elements : list FlValue)
  | FlMap (entries : list (FlValue * FlValue)).

(** [fl_value_new_string] copies the C string it is given. *)
Definition fl_value_new_string (value : string) : FlValue :=
  FlString (c_str value).

Inductive FlMethodResponse : Type :=
  | FlMethodSuccessResponse (result : FlValue)
  | FlMethodErrorResponse (code message : string) (details : FlValue)
  | FlMethodNotImplementedResponse.

Definition fl_method_success_response_new (result : FlValue) : FlMethodResponse :=
  FlMethodSuccessResponse result.

Definition fl_method_not_implemented_response_new : FlMethodResponse :=
  FlMethodNotImplementedResponse.

(** The [FL_METHOD_RESPONSE] cast. *)
Definition FL_METHOD_RESPONSE (r : FlMethodResponse) : FlMethodResponse := r.

(** [FlMethodCall]: the method name, the argument payload and the handle
    through which the host expects the answer. *)
Record FlMethodCall : Type := mk_call {
  call_name : string;
  call_args : FlValue;
  call_response_handle : nat
}.

Definition fl_method_call_get_name (method_call : FlMethodCall) : string :=
  call_name method_call.

Inductive FlMethodCodec : Type :=
  | FlStandardMethodCodec
  | FlJsonMethodCodec.

Definition fl_standard_method_codec_new : FlMethodCodec := FlStandardMethodCodec.

(** The [FL_METHOD_CODEC] cast. *)
Definition FL_METHOD_CODEC (codec : FlMethodCodec) : FlMethodCodec := codec.

Definition FlBinaryMessenger : Type := nat.

Record FlPluginRegistrar : Type := mk_registrar {
  registrar_messenger : FlBinaryMessenger
}.

Definition fl_plugin_registrar_get_messenger (registrar : FlPluginRegistrar)
  : FlBinaryMessenger := registrar_messenger registrar.

Record FlMethodChannel : Type := mk_channel {
  channel_messenger : FlBinaryMessenger;
  channel_name : string;
  channel_codec : FlMethodCodec
}.

(** Function pointers the plugin passes to the embedder. *)
Inductive FlMethodChannelMethodCallHandler : Type :=
  | method_call_cb_ptr.

Inductive GDestroyNotify : Type :=
  | g_object_unref_ptr.

(** What a messenger holds for a channel name. *)
Record channel_entry : Type := mk_entry {
  entry_codec : FlMethodCodec;
  entry_handler : option (FlMethodChannelMethodCallHandler * nat * GDestroyNotify)
}.

End Fl.

Export Fl.

(** ** GObject instances *)

Inductive GType : Type :=
  | nomade_native_plugin_type.

(** [G_DEFINE_TYPE(NomadeNativePlugin, nomade_native_plugin, ...)] *)
Definition nomade_native_plugin_get_type : GType := nomade_native_plugin_type.

Record GObject : Type := mk_gobject {
  g_type : GType;
  ref_count : nat
}.

(** ** The world the plugin runs in *)

Inductive event : Type :=
  | EvUname (ret : Z)
  | EvRespond (method_call : FlMethodCall) (response : FlMethodResponse)
  | EvSetHandler (messenger : FlBinaryMessenger) (name : string)
                 (handler : FlMethodChannelMethodCallHandler)
  | EvLog (message : string).

Record world : Type := mk_world {
  os : os_state;
  trace : list event;
  channels : gmap (FlBinaryMessenger * string) channel_entry;
  objects : gmap nat GObject
}.

(** Computations: state passing over [world]; [None] is undefined
    behaviour. *)
Definition M (A : Type) : Type := world -> option (A * world).

Definition ret {A} (a : A) : M A := fun w => Some (a, w).

Definition bind {A B} (c : M A) (k : A -> M B) : M B :=
  fun w => match c w with
           | Some (a, w') => k a w'
           | None => None
           end.

Definition undefined {A} : M A := fun _ => None.

Definition lift {A} (o : option A) : M A :=
  match o with Some a => ret a | None => undefined end.

Notation "x <- c1 ;; c2" := (bind c1 (fun x => c2))
  (at level 100, c1 at next level, right associativity).
Notation "c1 ;; c2" := (bind c1 (fun _ => c2))
  (at level 100, right associativity).

Definition emit (e : event) : M unit :=
  fun w => Some (tt, mk_world (os w) (trace w ++ [e]) (channels w) (objects w)).

Definition set_channels (f : gmap (FlBinaryMessenger * string) channel_entry ->
                             gmap (FlBinaryMessenger * string) channel_entry) : M unit :=
  fun w => Some (tt, mk_world (os w) (trace w) (f (channels w)) (objects w)).

Definition set_objects (f : gmap nat GObject -> gmap nat GObject) : M unit :=
  fun w => Some (tt, mk_world (os w) (trace w) (channels w) (f (objects w))).

Definition get_world : M world := fun w => Some (w, w).

(** ** What the plugin calls *)

(** [uname(&buf)]: the call is recorded; the buffer comes back as the kernel
    left it. *)
Definition uname (buf : utsname) : M (Z * utsname) :=
  w <- get_world ;;
  let r := uname_result (os w) buf in
  emit (EvUname (fst r)) ;;
  ret r.

(** [g_strdup_printf(format, ...)] *)
Definition g_strdup_printf (format : string) (args : list string) : M string :=
  lift (format_string format args).

(** [fl_method_call_respond(method_call, response, error)]: the response is
    handed to the host.  [error] is the optional [GError**]. *)
Definition fl_method_call_respond (method_call : FlMethodCall)
    (response : FlMethodResponse) (error : option unit) : M bool :=
  emit (EvRespond method_call response) ;;
  ret true.

(** [g_object_new(type, nullptr)]: a fresh instance holding one reference. *)
Definition g_object_new (type : GType) : M nat :=
  w <- get_world ;;
  let addr := fresh (dom (objects w)) in
  set_objects (insert addr (mk_gobject type 1)) ;;
  ret addr.

(** [g_object_ref(object)] *)
Definition g_object_ref (object : nat) : M nat :=
  w <- get_world ;;
  match objects w !! object with
  | Some o =>
      set_objects (insert object (mk_gobject (g_type o) (S (ref_count o)))) ;;
      ret object
  | None => undefined
  end.

(** [g_object_unref(object)]: dropping the last reference finalizes the
    instance. *)
Definition g_object_unref (object : nat) : M unit :=
  w <- get_world ;;
  match objects w !! object with
  | Some o =>
      match ref_count o with
      | O => undefined
      | S O => set_objects (delete object)
      | S n => set_objects (insert object (mk_gobject (g_type o) n))
      end
  | None => undefined
  end.

(** [fl_method_channel_new(messenger, name, codec)]: the messenger now routes
    [name] to the new channel, which has no method call handler yet.  The
    channel and codec objects are not kept in [objects], which tracks plugin
    instances; closing a channel this one replaces is the embedder's affair
    and is not modelled, so statements about reference counts ask for a
    name that is not routed yet. *)
Definition fl_method_channel_new (messenger : FlBinaryMessenger) (name : string)
    (codec : FlMethodCodec) : M FlMethodChannel :=
  set_channels (insert (messenger, c_str name) (mk_entry codec None)) ;;
  ret (mk_channel messenger (c_str name) codec).

(** [fl_method_channel_set_method_call_handler(channel, handler, user_data,
    destroy_notify)] *)
Definition fl_method_channel_set_method_call_handler (channel : FlMethodChannel)
    (handler : FlMethodChannelMethodCallHandler) (user_data : nat)
    (destroy_notify : GDestroyNotify) : M unit :=
  set_channels
    (alter (fun e => mk_entry (entry_codec e)
                       (Some (handler, user_data, destroy_notify)))
           (channel_messenger channel, channel_name channel)) ;;
  emit (EvSetHandler (channel_messenger channel) (channel_name channel) handler).

(** ** The plugin: [linux/nomade_native_plugin.cc] *)

(** A [NomadeNativePlugin*] is the address of its GObject instance. *)
Definition NomadeNativePlugin : Type := nat.

(** The [NOMADE_NATIVE_PLUGIN(obj)] cast.  On a live plugin instance the
    checked cast returns its argument; what it reports on anything else is
    not modelled, and statements about the callback ask for a live
    instance. *)
Definition NOMADE_NATIVE_PLUGIN (obj : nat) : NomadeNativePlugin := obj.

Definition get_platform_version : M FlMethodResponse :=
  let uname_data := utsname_zero in
  r <- uname uname_data ;;
  let uname_data := snd r in
  version <- g_strdup_printf "Linux %s" [uname_data.(version)] ;;
  let result := fl_value_new_string version in
  ret (FL_METHOD_RESPONSE (fl_method_success_response_new result)).

(** Called when a method call is received from Flutter. *)
Definition nomade_native_plugin_handle_method_call (self : NomadeNativePlugin)
    (method_call : FlMethodCall) : M unit :=
  let method := fl_method_call_get_name method_call in
  response <-
    (if (strcmp method "getPlatformVersion" =? 0)%Z
     then get_platform_version
     else ret (FL_METHOD_RESPONSE fl_method_not_implemented_response_new)) ;;
  fl_method_call_respond method_call response None ;;
  ret tt.

Definition method_call_cb (channel : FlMethodChannel) (method_call : FlMethodCall)
    (user_data : nat) : M unit :=
  let plugin := NOMADE_NATIVE_PLUGIN user_data in
  nomade_native_plugin_handle_method_call plugin method_call.

Definition nomade_native_plugin_register_with_registrar
    (registrar : FlPluginRegistrar) : M unit :=
  obj <- g_object_new nomade_native_plugin_get_type ;;
  let plugin := NOMADE_NATIVE_PLUGIN obj in
  let codec := fl_standard_method_codec_new in
  channel <- fl_method_channel_new (fl_plugin_registrar_get_messenger registrar)
               "nomade_native" (FL_METHOD_CODEC codec) ;;
  user_data <- g_object_ref plugin ;;
  fl_method_channel_set_method_call_handler channel method_call_cb_ptr
    user_data g_object_unref_ptr ;;
  g_object_unref plugin.

(** The function behind a handler pointer. *)
Definition call_handler (handler : FlMethodChannelMethodCallHandler)
  : FlMethodChannel -> FlMethodCall -> nat -> M unit :=
  match handler with
  | method_call_cb_ptr => method_call_cb
  end.

(** ** Observations on a run *)

(** The world after more events were recorded. *)
Definition add_events (w : world) (evs : list event) : world :=
  mk_world (os w) (trace w ++ evs) (channels w) (objects w).

(** The responses handed to the host, in order. *)
Fixpoint responses (t : list event) : list (FlMethodCall * FlMethodResponse) :=
  match t with
  | [] => []
  | EvRespond c r :: t' => (c, r) :: responses t'
  | _ :: t' => responses t'
  end.

(** How often the operating system was asked for its version. *)
Fixpoint uname_calls (t : list event) : nat :=
  match t with
  | [] => O
  | EvUname _ :: t' => S (uname_calls t')
  | _ :: t' => uname_calls t'
  end.

(** The messages logged. *)
Fixpoint logged (t : list event) : list string :=
  match t with
  | [] => []
  | EvLog m :: t' => m :: logged t'
  | _ :: t' => logged t'
  end.

(** The handler installations. *)
Fixpoint installs (t : list event)
  : list (FlBinaryMessenger * string * FlMethodChannelMethodCallHandler) :=
  match t with
  | [] => []
  | EvSetHandler m n h :: t' => (m, n, h) :: installs t'
  | _ :: t' => installs t'
  end.

(** The string [get_platform_version] builds in OS state [o]. *)
Definition platform_version_string (o : os_state) : string :=
  "Linux " ++ c_str (version (snd (uname_result o utsname_zero))).

(** ** Windows: [windows/nomade_native_plugin_c_api.cpp]

    The C entry point looks up the C++ wrapper of the registrar and forwards
    to [NomadeNativePlugin::RegisterWithRegistrar].  The header declares that
    function; its body is not covered here and is kept as a variable. *)

Section WindowsCApi.

Variables FlutterDesktopPluginRegistrarRef PluginRegistrarWindows : Type.

(** [PluginRegistrarManager::GetInstance()->GetRegistrar<...>(registrar)] *)
Variable GetRegistrar : FlutterDesktopPluginRegistrarRef -> PluginRegistrarWindows.

(** [NomadeNativePlugin::RegisterWithRegistrar] *)
Variable RegisterWithRegistrar : PluginRegistrarWindows -> M unit.

Definition NomadeNativePluginCApiRegisterWithRegistrar
    (registrar : FlutterDesktopPluginRegistrarRef) : M unit :=
  RegisterWithRegistrar (GetRegistrar registrar).

End WindowsCApi.

(** ** Sample hosts *)

(** [s] stored in a [char\[_UTSNAME_LENGTH\]]. *)
Definition in_field (s : string) : string :=
  s ++ zeroed (_UTSNAME_LENGTH - String.length s).

(** A host whose version field reads 5.15.0-76-generic. *)
Definition sample_uts : utsname :=
  mk_utsname (in_field "Linux") (in_field "nomade-host")
    (in_field "5.15.0-76-generic") (in_field "5.15.0-76-generic")
    (in_field "x86_64") (in_field "(none)").

Definition sample_world : world :=
  mk_world (mk_os (UnameOk sample_uts)) [] ∅ ∅.

(** The same host, with one answered call and one live object behind it. *)
Definition busy_world : world :=
  mk_world (mk_os (UnameOk sample_uts))
    [EvRespond (mk_call "getBatteryLevel" FlNull 1) FlMethodNotImplementedResponse]
    ∅ {[ 0%nat := mk_gobject nomade_native_plugin_type 1 ]}.

(** A host on which [uname] fails with [EFAULT]. *)
Definition failing_world : world :=
  mk_world (mk_os (UnameFail 14)) [] ∅ ∅.

(** On a stock Ubuntu kernel the release field carries 5.15.0-76-generic and
    the version field the build stamp; the query reports the latter. *)
Definition ubuntu_uts : utsname :=
  mk_utsname (in_field "Linux") (in_field "nomade-host")
    (in_field "5.15.0-76-generic")
    (in_field "#83-Ubuntu SMP Thu Jun 15 19:16:32 UTC 2023")
    (in_field "x86_64") (in_field "(none)").

(** ** The host's side of a registration *)

(** The function behind a destroy notification pointer. *)
Definition call_destroy_notify (notify : GDestroyNotify) : nat -> M unit :=
  match notify with
  | g_object_unref_ptr => g_object_unref
  end.

(** The host passing the calls it receives on a channel to [method_call_cb],
    one after the other. *)
Fixpoint serve (channel : FlMethodChannel) (user_data : nat)
    (calls : list FlMethodCall) : M unit :=
  match calls with
  | [] => ret tt
  | method_call :: rest =>
      method_call_cb channel method_call user_data ;;
      serve channel user_data rest
  end.

(** Whether a call names the one supported method. *)
Definition names_platform_version (method_call : FlMethodCall) : bool :=
  String.eqb (c_str (call_name method_call)) "getPlatformVersion".

(** The response due to a call in OS state [o]. *)
Definition due_response (o : os_state) (method_call : FlMethodCall)
  : FlMethodResponse :=
  if names_platform_version method_call
  then FlMethodSuccessResponse (FlString (platform_version_string o))
  else FlMethodNotImplementedResponse.

(** The events one dispatch adds in OS state [o]. *)
Definition dispatch_events (o : os_state) (method_call : FlMethodCall)
  : list event :=
  if names_platform_version method_call
  then [EvUname (fst (uname_result o utsname_zero));
        EvRespond method_call (due_response o method_call)]
  else [EvRespond method_call (due_response o method_call)].

(** A second machine running the same kernel build as [sample_uts]. *)
Definition other_host_uts : utsname :=
  mk_utsname (in_field "Linux") (in_field "build-farm-17")
    (in_field "5.15.0-91-lowlatency") (in_field "5.15.0-76-generic")
    (in_field "aarch64") (in_field "example.org").

(** A host with two channels of other plugins and two live objects. *)
Definition crowded_world : world :=
  mk_world (mk_os (UnameOk ubuntu_uts))
    [EvUname 0]
    {[ (0%nat, "battery") := mk_entry FlJsonMethodCodec None;
       (1%nat, "nomade_native") := mk_entry FlStandardMethodCodec None ]}
    {[ 0%nat := mk_gobject nomade_native_plugin_type 2;
       1%nat := mk_gobject nomade_native_plugin_type 1 ]}.

(** The responses a run has handed to the host when it returns. *)
Definition responses_of_run {A} (run : option (A * world))
  : option (list (FlMethodCall * FlMethodResponse)) :=
  option_map (fun r => responses (trace (snd r))) run.

(** A stock Ubuntu host running kernel 5.15.0-76-generic, nothing registered
    yet. *)
Definition ubuntu_world : world :=
  mk_world (mk_os (UnameOk ubuntu_uts)) [] ∅ ∅.

(** ** Facts about the model *)

Section CStringFacts.

Lemma uchar_inj c d : uchar c = uchar d -> c = d.
Proof.
  unfold uchar. intros H. apply N2Z.inj in H.
  rewrite <- (ascii_N_embedding c), <- (ascii_N_embedding d). now rewrite H.
Qed.

Lemma uchar_nul : uchar NUL = 0.
Proof. reflexivity. Qed.

Lemma is_nul_spec c : is_nul c = true <-> c = NUL.
Proof. unfold is_nul. apply Ascii.eqb_eq. Qed.

Lemma uchar_zero_nul c : uchar c = 0 -> is_nul c = true.
Proof.
  intros H. apply is_nul_spec. apply uchar_inj. now rewrite uchar_nul.
Qed.

Lemma c_str_nul_free mem : nul_free mem = true -> c_str mem = mem.
Proof.
  induction mem as [|c rest IH]; simpl; [reflexivity|].
  destruct (is_nul c); simpl; [discriminate|].
  intros H. now rewrite IH.
Qed.

Lemma c_str_is_nul_free mem : nul_free (c_str mem) = true.
Proof.
  induction mem as [|c rest IH]; simpl; [reflexivity|].
  destruct (is_nul c) eqn:E; simpl; [reflexivity|].
  now rewrite E.
Qed.

Lemma c_str_idem mem : c_str (c_str mem) = c_str mem.
Proof. apply c_str_nul_free, c_str_is_nul_free. Qed.

Lemma c_str_zeroed n : c_str (zeroed n) = EmptyString.
Proof. destruct n; reflexivity. Qed.

(** [strcmp] answers 0 exactly when both pointers designate the same C
    string. *)
Lemma strcmp_zero_iff s1 : forall s2, strcmp s1 s2 = 0 <-> c_str s1 = c_str s2.
Proof.
  induction s1 as [|c1 r1 IH]; intros [|c2 r2]; simpl.
  - tauto.
  - rewrite uchar_nul. split.
    + intros H. assert (Hc : uchar c2 = 0) by lia.
      now rewrite (uchar_zero_nul _ Hc).
    + destruct (is_nul c2) eqn:E; [|discriminate].
      apply is_nul_spec in E. subst c2. reflexivity.
  - rewrite uchar_nul. split.
    + intros H. assert (Hc : uchar c1 = 0) by lia.
      now rewrite (uchar_zero_nul _ Hc).
    + destruct (is_nul c1) eqn:E; [|discriminate].
      apply is_nul_spec in E. subst c1. reflexivity.
  - destruct (Ascii.eqb c1 c2) eqn:E.
    + apply Ascii.eqb_eq in E. subst c2.
      destruct (is_nul c1); [tauto|].
      rewrite IH. split; [congruence|]. intros H. now inversion H.
    + apply Ascii.eqb_neq in E. split.
      * intros H. exfalso. apply E. apply uchar_inj. lia.
      * destruct (is_nul c1) eqn:E1, (is_nul c2) eqn:E2; try discriminate.
        -- apply is_nul_spec in E1, E2. congruence.
        -- intros H. inversion H. contradiction.
Qed.

Lemma strcmp_refl s : strcmp s s = 0.
Proof. now apply strcmp_zero_iff. Qed.

End CStringFacts.

Section MonadFacts.

Context {A B C : Type}.

Lemma bind_ret_l (a : A) (k : A -> M B) w : (x <- ret a ;; k x) w = k a w.
Proof. reflexivity. Qed.

Lemma bind_ret_r (c : M A) w : (x <- c ;; ret x) w = c w.
Proof. unfold bind, ret. destruct (c w) as [[a w']|]; reflexivity. Qed.

Lemma bind_assoc (c : M A) (k : A -> M B) (h : B -> M C) w :
  (y <- (x <- c ;; k x) ;; h y) w = (x <- c ;; y <- k x ;; h y) w.
Proof. unfold bind. destruct (c w) as [[a w']|]; reflexivity. Qed.

Lemma bind_some (c : M A) (k : A -> M B) w a w' :
  c w = Some (a, w') -> (x <- c ;; k x) w = k a w'.
Proof. unfold bind. now intros ->. Qed.

End MonadFacts.

Section StringFacts.

Lemma append_cons (c : ascii) (s t : string) :
  String c s ++ t = String c (s ++ t).
Proof. reflexivity. Qed.

Lemma append_empty_l (t : string) : EmptyString ++ t = t.
Proof. reflexivity. Qed.

Lemma append_empty_r (s : string) : s ++ EmptyString = s.
Proof.
  induction s as [|c s IH]; [reflexivity|].
  rewrite append_cons. f_equal. exact IH.
Qed.

Lemma nul_free_append (a b : string) :
  nul_free (a ++ b) = nul_free a && nul_free b.
Proof.
  induction a as [|c a IH]; [reflexivity|].
  rewrite append_cons. simpl. rewrite IH. now destruct (is_nul c).
Qed.

Lemma c_str_append (a b : string) :
  nul_free a = true -> c_str (a ++ b) = a ++ c_str b.
Proof.
  induction a as [|c a IH]; [reflexivity|].
  rewrite append_cons. simpl.
  destruct (is_nul c); simpl; [discriminate|].
  intros H. rewrite append_cons. now rewrite IH.
Qed.

(** Formatting never produces an embedded NUL: the result of
    [g_strdup_printf] is a C string as it stands. *)
Lemma format_string_nul_free_bounded (n : nat) :
  forall format args s,
    (String.length format <= n)%nat ->
    format_string format args = Some s -> nul_free s = true.
Proof.
  induction n as [|n IH]; intros [|c rest] args s Hlen; simpl in *;
    try (intros [= <-]; reflexivity); try lia.
  destruct (is_nul c) eqn:Hc; [intros [= <-]; reflexivity|].
  destruct (Ascii.eqb c "%"%char) eqn:Hp.
  - destruct rest as [|d rest']; [discriminate|]. simpl in Hlen.
    destruct (Ascii.eqb d "s"%char).
    + destruct args as [|p args']; [discriminate|].
      destruct (format_string rest' args') as [t|] eqn:Ht; [|discriminate].
      intros [= <-]. rewrite nul_free_append, c_str_is_nul_free. simpl.
      apply (IH rest' args'); [lia | exact Ht].
    + destruct (Ascii.eqb d "%"%char); [|discriminate].
      destruct (format_string rest' args) as [t|] eqn:Ht; [|discriminate].
      intros [= <-]. simpl. apply (IH rest' args); [lia | exact Ht].
  - destruct (format_string rest args) as [t|] eqn:Ht; [|discriminate].
    intros [= <-]. simpl. rewrite Hc. simpl.
    apply (IH rest args); [lia | exact Ht].
Qed.

Lemma format_string_nul_free format args s :
  format_string format args = Some s -> nul_free s = true.
Proof. apply (format_string_nul_free_bounded (String.length format)). lia. Qed.

(** The plugin's one format string. *)
Lemma format_string_linux (p : string) :
  format_string "Linux %s" [p] = Some ("Linux " ++ c_str p).
Proof. simpl. now rewrite append_empty_r. Qed.

Lemma nul_free_linux (p : string) : nul_free ("Linux " ++ c_str p) = true.
Proof. apply (format_string_nul_free _ _ _ (format_string_linux p)). Qed.

End StringFacts.

Section TraceFacts.

Lemma responses_app (t1 t2 : list event) :
  responses (t1 ++ t2) = (responses t1 ++ responses t2)%list.
Proof.
  induction t1 as [|e t1 IH]; simpl; [reflexivity|].
  destruct e; simpl; now rewrite IH.
Qed.

Lemma uname_calls_app (t1 t2 : list event) :
  uname_calls (t1 ++ t2) = (uname_calls t1 + uname_calls t2)%nat.
Proof.
  induction t1 as [|e t1 IH]; simpl; [reflexivity|].
  destruct e; simpl; now rewrite IH.
Qed.

Lemma logged_app (t1 t2 : list event) :
  logged (t1 ++ t2) = (logged t1 ++ logged t2)%list.
Proof.
  induction t1 as [|e t1 IH]; simpl; [reflexivity|].
  destruct e; simpl; now rewrite IH.
Qed.

Lemma installs_app (t1 t2 : list event) :
  installs (t1 ++ t2) = (installs t1 ++ installs t2)%list.
Proof.
  induction t1 as [|e t1 IH]; simpl; [reflexivity|].
  destruct e; simpl; now rewrite IH.
Qed.

Lemma add_events_nil w : add_events w [] = w.
Proof. destruct w. unfold add_events. simpl. now rewrite app_nil_r. Qed.

Lemma add_events_app w e1 e2 :
  add_events (add_events w e1) e2 = add_events w (e1 ++ e2).
Proof. unfold add_events. simpl. now rewrite <- app_assoc. Qed.

End TraceFacts.

Create Rewrite HintDb traces.
#[local] Hint Rewrite responses_app uname_calls_app logged_app installs_app
  @app_nil_r : traces.

(** Unfolds the calls a plugin function makes down to plain state passing. *)
Ltac unfold_calls :=
  unfold uname, g_strdup_printf, fl_method_call_respond, g_object_new,
    g_object_ref, g_object_unref, fl_method_channel_new,
    fl_method_channel_set_method_call_handler;
  unfold bind, get_world, set_objects, set_channels, emit, ret.

(** ** How the plugin's functions run *)

Section Runs.

Lemma get_platform_version_run w :
  get_platform_version w =
  Some (FlMethodSuccessResponse (FlString (platform_version_string (os w))),
        add_events w [EvUname (fst (uname_result (os w) utsname_zero))]).
Proof.
  unfold get_platform_version. unfold_calls. cbv zeta.
  rewrite format_string_linux. simpl lift. unfold ret.
  unfold fl_value_new_string, FL_METHOD_RESPONSE, fl_method_success_response_new.
  rewrite (c_str_nul_free _ (nul_free_linux _)).
  reflexivity.
Qed.

Lemma handle_method_call_match self method_call w :
  c_str (call_name method_call) = "getPlatformVersion" ->
  nomade_native_plugin_handle_method_call self method_call w =
  Some (tt, add_events w
              [EvUname (fst (uname_result (os w) utsname_zero));
               EvRespond method_call
                 (FlMethodSuccessResponse
                    (FlString (platform_version_string (os w))))]).
Proof.
  intros Hname. unfold nomade_native_plugin_handle_method_call.
  unfold fl_method_call_get_name. cbv zeta.
  assert (Hcmp : strcmp (call_name method_call) "getPlatformVersion" = 0)
    by (apply strcmp_zero_iff; rewrite Hname; reflexivity).
  rewrite Hcmp. simpl Z.eqb. cbv iota.
  rewrite (bind_some _ _ _ _ _ (get_platform_version_run w)).
  unfold fl_method_call_respond, bind, emit, ret. simpl.
  unfold add_events. simpl. now rewrite <- app_assoc.
Qed.

Lemma handle_method_call_no_match self method_call w :
  c_str (call_name method_call) <> "getPlatformVersion" ->
  nomade_native_plugin_handle_method_call self method_call w =
  Some (tt, add_events w [EvRespond method_call FlMethodNotImplementedResponse]).
Proof.
  intros Hname. unfold nomade_native_plugin_handle_method_call.
  unfold fl_method_call_get_name. cbv zeta.
  destruct (Z.eqb_spec (strcmp (call_name method_call) "getPlatformVersion") 0)
    as [Hcmp|Hcmp].
  - exfalso. apply Hname. apply strcmp_zero_iff in Hcmp. rewrite Hcmp. reflexivity.
  - reflexivity.
Qed.

(** For a name without embedded NUL the C string is the name itself. *)
Lemma handle_method_call_no_match_plain self method_call w :
  nul_free (call_name method_call) = true ->
  call_name method_call <> "getPlatformVersion" ->
  nomade_native_plugin_handle_method_call self method_call w =
  Some (tt, add_events w [EvRespond method_call FlMethodNotImplementedResponse]).
Proof.
  intros Hfree Hname. apply handle_method_call_no_match.
  now rewrite (c_str_nul_free _ Hfree).
Qed.

(** What follows a terminator in memory is not part of the name. *)
Example name_stops_at_terminator :
  c_str ("getPlatformVersion" ++ String NUL "junk") = "getPlatformVersion" /\
  strcmp ("getPlatformVersion" ++ String NUL "junk") "getPlatformVersion" = 0.
Proof. split; reflexivity. Qed.

End Runs.

Section MoreRuns.

(** A run of the query asks the operating system exactly once and leaves the
    rest of the world alone. *)
Lemma get_platform_version_calls_uname w r w' :
  get_platform_version w = Some (r, w') ->
  uname_calls (trace w') = S (uname_calls (trace w)) /\
  responses (trace w') = responses (trace w) /\
  os w' = os w /\ channels w' = channels w /\ objects w' = objects w.
Proof.
  rewrite get_platform_version_run. intros [= <- <-]. simpl.
  autorewrite with traces. simpl. repeat split; lia.
Qed.

(** Only the [version] field of the kernel's data reaches the result. *)
Lemma platform_version_string_ok (o : os_state) (k : utsname) :
  os_uname o = UnameOk k ->
  platform_version_string o = "Linux " ++ c_str (version k).
Proof. unfold platform_version_string, uname_result. now intros ->. Qed.

Lemma platform_version_string_fail (o : os_state) (e : Z) :
  os_uname o = UnameFail e ->
  platform_version_string o = "Linux ".
Proof. unfold platform_version_string, uname_result. now intros ->. Qed.

Lemma uname_result_fail (o : os_state) (e : Z) (buf : utsname) :
  os_uname o = UnameFail e -> uname_result o buf = (-1, buf).
Proof. unfold uname_result. now intros ->. Qed.

Lemma uname_result_ok (o : os_state) (k buf : utsname) :
  os_uname o = UnameOk k -> uname_result o buf = (0, k).
Proof. unfold uname_result. now intros ->. Qed.

(** The dispatcher always answers, and answers once. *)
Lemma handle_method_call_total self method_call w :
  exists response pre,
    nomade_native_plugin_handle_method_call self method_call w =
      Some (tt, add_events w (pre ++ [EvRespond method_call response])) /\
    responses pre = [].
Proof.
  destruct (string_dec (c_str (call_name method_call)) "getPlatformVersion")
    as [Heq|Hne].
  - exists (FlMethodSuccessResponse (FlString (platform_version_string (os w)))),
      [EvUname (fst (uname_result (os w) utsname_zero))].
    split; [|reflexivity].
    now rewrite (handle_method_call_match _ _ _ Heq).
  - exists FlMethodNotImplementedResponse, []. split; [|reflexivity].
    now rewrite (handle_method_call_no_match _ _ _ Hne).
Qed.

Lemma register_with_registrar_run registrar w :
  nomade_native_plugin_register_with_registrar registrar w =
  Some (tt,
        mk_world (os w)
          (trace w ++
             [EvSetHandler (registrar_messenger registrar) "nomade_native"
                method_call_cb_ptr])
          (<[(registrar_messenger registrar, "nomade_native") :=
               mk_entry FlStandardMethodCodec
                 (Some (method_call_cb_ptr, fresh (dom (objects w)),
                        g_object_unref_ptr))]> (channels w))
          (<[fresh (dom (objects w)) :=
               mk_gobject nomade_native_plugin_type 1]> (objects w))).
Proof.
  unfold nomade_native_plugin_register_with_registrar. unfold_calls. simpl.
  rewrite lookup_insert_eq. simpl. rewrite lookup_insert_eq. simpl.
  rewrite alter_insert_eq, !insert_insert_eq. reflexivity.
Qed.

(** The instance created by the registration is new, and after the
    registration its one remaining reference is the handler's. *)
Lemma register_with_registrar_plugin registrar w w' :
  nomade_native_plugin_register_with_registrar registrar w = Some (tt, w') ->
  objects w !! fresh (dom (objects w)) = None /\
  objects w' !! fresh (dom (objects w)) =
    Some (mk_gobject nomade_native_plugin_type 1).
Proof.
  rewrite register_with_registrar_run. intros [= <-]. simpl. split.
  - apply not_elem_of_dom, is_fresh.
  - apply lookup_insert_eq.
Qed.

(** After the registration, a call that the host routes through the handler
    it holds for nomade_native reaches the dispatcher and is answered once. *)
Lemma registered_channel_dispatches registrar w w' method_call :
  nomade_native_plugin_register_with_registrar registrar w = Some (tt, w') ->
  exists codec handler user_data destroy_notify,
    channels w' !! (registrar_messenger registrar, "nomade_native") =
      Some (mk_entry codec (Some (handler, user_data, destroy_notify))) /\
    exists response w'',
      call_handler handler
        (mk_channel (registrar_messenger registrar) "nomade_native" codec)
        method_call user_data w' = Some (tt, w'') /\
      responses (trace w'') =
        (responses (trace w') ++ [(method_call, response)])%list.
Proof.
  rewrite register_with_registrar_run. intros [= <-].
  eexists _, _, _, _. split; [apply lookup_insert_eq|].
  destruct (handle_method_call_total (fresh (dom (objects w))) method_call
              (mk_world (os w)
                 (trace w ++
                    [EvSetHandler (registrar_messenger registrar) "nomade_native"
                       method_call_cb_ptr])
                 (<[(registrar_messenger registrar, "nomade_native") :=
                      mk_entry FlStandardMethodCodec
                        (Some (method_call_cb_ptr, fresh (dom (objects w)),
                               g_object_unref_ptr))]> (channels w))
                 (<[fresh (dom (objects w)) :=
                      mk_gobject nomade_native_plugin_type 1]> (objects w))))
    as (response & pre & Hrun & Hpre).
  exists response. eexists. split; [exact Hrun|].
  simpl. rewrite !responses_app, Hpre. reflexivity.
Qed.

End MoreRuns.

(** The Windows entry point does what the plugin class's registration does
    on the registrar's wrapper, nothing more. *)
Lemma c_api_register_forwards
    {Ref Registrar : Type} (GetRegistrar : Ref -> Registrar)
    (RegisterWithRegistrar : Registrar -> M unit) (registrar : Ref) (w : world) :
  NomadeNativePluginCApiRegisterWithRegistrar Ref Registrar GetRegistrar
    RegisterWithRegistrar registrar w =
  RegisterWithRegistrar (GetRegistrar registrar) w.
Proof. reflexivity. Qed.

(** ** The dispatcher *)

(** C1: every method call handed to the dispatcher, whatever its name and
    arguments, makes the dispatcher return normally after handing exactly one
    response for that call to the host: the responses recorded afterwards are
    those recorded before plus this one. *)
Theorem dispatcher_exactly_one_response
    (self : NomadeNativePlugin) (method_call : FlMethodCall) (w : world) :
  exists response w',
    nomade_native_plugin_handle_method_call self method_call w = Some (tt, w') /\
    responses (trace w') =
      (responses (trace w) ++ [(method_call, response)])%list.
Proof.
  destruct (handle_method_call_total self method_call w)
    as (response & pre & Hrun & Hpre).
  exists response, (add_events w (pre ++ [EvRespond method_call response])).
  split; [exact Hrun|].
  simpl. rewrite !responses_app, Hpre. reflexivity.
Qed.

(** C2: when the method name is any C string other than getPlatformVersion
    (compared character by character, so letter case counts), the dispatcher
    hands over a not-implemented response and nothing else happens: the
    operating system is not queried and nothing is logged. *)
Theorem dispatcher_other_names_not_implemented
    (self : NomadeNativePlugin) (method_call : FlMethodCall) (w : world) :
  c_str (fl_method_call_get_name method_call) <> "getPlatformVersion" ->
  exists w',
    nomade_native_plugin_handle_method_call self method_call w = Some (tt, w') /\
    trace w' =
      (trace w ++ [EvRespond method_call FlMethodNotImplementedResponse])%list /\
    uname_calls (trace w') = uname_calls (trace w) /\
    logged (trace w') = logged (trace w).
Proof.
  intros Hname.
  exists (add_events w [EvRespond method_call FlMethodNotImplementedResponse]).
  split; [now apply handle_method_call_no_match|].
  simpl. rewrite uname_calls_app, logged_app. simpl.
  rewrite app_nil_r. repeat split; lia.
Qed.

Lemma dispatcher_other_names_not_implemented_witness :
  let method_call := mk_call "getBatteryLevel" FlNull 1 in
  c_str (fl_method_call_get_name method_call) <> "getPlatformVersion" /\
  exists w',
    nomade_native_plugin_handle_method_call 0%nat method_call busy_world =
      Some (tt, w') /\
    trace w' =
      (trace busy_world ++
         [EvRespond method_call FlMethodNotImplementedResponse])%list /\
    uname_calls (trace w') = uname_calls (trace busy_world) /\
    logged (trace w') = logged (trace busy_world).
Proof.
  split.
  - vm_compute. discriminate.
  - apply (dispatcher_other_names_not_implemented 0%nat
             (mk_call "getBatteryLevel" FlNull 1) busy_world).
    vm_compute. discriminate.
Defined.

(** Names that differ from the supported one in letter case, by a missing or
    an extra character are all foreign to the dispatcher. *)
Example near_miss_names :
  Forall (fun name => (strcmp name "getPlatformVersion" =? 0)%Z = false)
    ["getplatformversion"; "GetPlatformVersion"; "GETPLATFORMVERSION";
     "getPlatformVersio"; "getPlatformVersion "; " getPlatformVersion";
     EmptyString; "getBatteryLevel"].
Proof. repeat constructor. Qed.

(** C3: for the method name getPlatformVersion the dispatcher hands over a
    success response whose payload is a string value, hence not the null
    value. *)
Theorem dispatcher_get_platform_version_success
    (self : NomadeNativePlugin) (method_call : FlMethodCall) (w : world) :
  c_str (fl_method_call_get_name method_call) = "getPlatformVersion" ->
  exists s w',
    nomade_native_plugin_handle_method_call self method_call w = Some (tt, w') /\
    responses (trace w') =
      (responses (trace w) ++
         [(method_call, FlMethodSuccessResponse (FlString s))])%list /\
    FlString s <> FlNull.
Proof.
  intros Hname.
  exists (platform_version_string (os w)).
  eexists. split; [now apply handle_method_call_match|].
  simpl. rewrite responses_app. simpl. split; [reflexivity | discriminate].
Qed.

Lemma dispatcher_get_platform_version_success_witness :
  let method_call := mk_call "getPlatformVersion" FlNull 2 in
  c_str (fl_method_call_get_name method_call) = "getPlatformVersion" /\
  exists s w',
    nomade_native_plugin_handle_method_call 0%nat method_call busy_world =
      Some (tt, w') /\
    responses (trace w') =
      (responses (trace busy_world) ++
         [(method_call, FlMethodSuccessResponse (FlString s))])%list /\
    FlString s <> FlNull.
Proof.
  split.
  - reflexivity.
  - apply (dispatcher_get_platform_version_success 0%nat
             (mk_call "getPlatformVersion" FlNull 2) busy_world).
    reflexivity.
Defined.

(** ** The platform version query *)

(** C4: in every OS state the query returns, as a success, the literal
    "Linux " followed by the C string held in the version field of the
    utsname structure that [uname] was called on; after a successful call
    that structure is the kernel's. *)
Theorem get_platform_version_linux_version (w : world) :
  exists ret uname_data,
    uname_result (os w) utsname_zero = (ret, uname_data) /\
    get_platform_version w =
      Some (FlMethodSuccessResponse
              (FlString ("Linux " ++ c_str (version uname_data))),
            add_events w [EvUname ret]) /\
    (forall kernel_uts,
        os_uname (os w) = UnameOk kernel_uts -> uname_data = kernel_uts).
Proof.
  exists (fst (uname_result (os w) utsname_zero)),
         (snd (uname_result (os w) utsname_zero)).
  split; [now destruct (uname_result (os w) utsname_zero)|].
  split; [apply get_platform_version_run|].
  intros k Hk. now rewrite (uname_result_ok _ k _ Hk).
Qed.

(** C5 (amended): a call of getPlatformVersion without arguments on a Linux
    host whose utsname version field holds the C string V is answered with
    the success value "Linux V": the OS name, a space and the version field.
    The release field, which is where a kernel names itself
    5.15.0-76-generic, is not read. *)
Theorem scenario_linux_version_field
    (self : NomadeNativePlugin) (handle : nat) (w : world)
    (kernel_uts : utsname) (V : string) :
  os_uname (os w) = UnameOk kernel_uts ->
  c_str (version kernel_uts) = V ->
  let method_call := mk_call "getPlatformVersion" FlNull handle in
  nomade_native_plugin_handle_method_call self method_call w =
    Some (tt, add_events w
                [EvUname 0;
                 EvRespond method_call
                   (FlMethodSuccessResponse (FlString ("Linux" ++ " " ++ V)))]).
Proof.
  intros Hos Hver method_call.
  rewrite (handle_method_call_match self method_call w eq_refl).
  rewrite (platform_version_string_ok _ _ Hos), Hver.
  rewrite (uname_result_ok _ _ _ Hos). reflexivity.
Qed.

Lemma scenario_linux_version_field_witness :
  os_uname (os ubuntu_world) = UnameOk ubuntu_uts /\
  c_str (version ubuntu_uts) = "#83-Ubuntu SMP Thu Jun 15 19:16:32 UTC 2023" /\
  let method_call := mk_call "getPlatformVersion" FlNull 3 in
  nomade_native_plugin_handle_method_call 0%nat method_call ubuntu_world =
    Some (tt, add_events ubuntu_world
                [EvUname 0;
                 EvRespond method_call
                   (FlMethodSuccessResponse
                      (FlString
                         ("Linux" ++ " " ++
                          "#83-Ubuntu SMP Thu Jun 15 19:16:32 UTC 2023")))]).
Proof.
  split; [reflexivity|]. split; [reflexivity|].
  apply (scenario_linux_version_field 0%nat 3%nat ubuntu_world ubuntu_uts
           "#83-Ubuntu SMP Thu Jun 15 19:16:32 UTC 2023"); reflexivity.
Defined.

(** On the host whose kernel is 5.15.0-76-generic (its release field says
    so) the call is answered, but not with "Linux 5.15.0-76-generic": the
    value is "Linux " followed by the build stamp of the version field. *)
Lemma scenario_release_5_15_counterexample :
  let method_call := mk_call "getPlatformVersion" FlNull 3 in
  c_str (release ubuntu_uts) = "5.15.0-76-generic" /\
  os_uname (os ubuntu_world) = UnameOk ubuntu_uts /\
  responses_of_run
    (nomade_native_plugin_handle_method_call 0%nat method_call ubuntu_world) =
    Some [(method_call,
           FlMethodSuccessResponse
             (FlString "Linux #83-Ubuntu SMP Thu Jun 15 19:16:32 UTC 2023"))] /\
  responses_of_run
    (nomade_native_plugin_handle_method_call 0%nat method_call ubuntu_world) <>
    Some [(method_call,
           FlMethodSuccessResponse (FlString "Linux 5.15.0-76-generic"))].
Proof.
  split; [reflexivity|]. split; [reflexivity|]. split; [reflexivity|].
  vm_compute. discriminate.
Qed.

(** The release field plays no part: on the stock Ubuntu host the answer is
    the build stamp. *)
Example get_platform_version_ubuntu :
  option_map fst
    (get_platform_version (mk_world (mk_os (UnameOk ubuntu_uts)) [] ∅ ∅)) =
  Some (FlMethodSuccessResponse
          (FlString "Linux #83-Ubuntu SMP Thu Jun 15 19:16:32 UTC 2023")).
Proof. reflexivity. Qed.

(** C6: when [uname] fails (it returns -1), the query still returns a
    success response carrying a string, and a getPlatformVersion call is
    still answered exactly once, with that string. *)
Theorem uname_failure_still_answers
    (self : NomadeNativePlugin) (method_call : FlMethodCall) (w : world)
    (errno : Z) :
  os_uname (os w) = UnameFail errno ->
  c_str (fl_method_call_get_name method_call) = "getPlatformVersion" ->
  exists s,
    get_platform_version w =
      Some (FlMethodSuccessResponse (FlString s), add_events w [EvUname (-1)]) /\
    exists w',
      nomade_native_plugin_handle_method_call self method_call w = Some (tt, w') /\
      trace w' =
        (trace w ++
           [EvUname (-1);
            EvRespond method_call (FlMethodSuccessResponse (FlString s))])%list /\
      responses (trace w') =
        (responses (trace w) ++
           [(method_call, FlMethodSuccessResponse (FlString s))])%list.
Proof.
  intros Hos Hname. exists (platform_version_string (os w)).
  rewrite get_platform_version_run, (handle_method_call_match _ _ _ Hname).
  rewrite (uname_result_fail _ _ _ Hos). split; [reflexivity|].
  eexists. split; [reflexivity|]. simpl. split; [reflexivity|].
  rewrite responses_app. reflexivity.
Qed.

Lemma uname_failure_still_answers_witness :
  let method_call := mk_call "getPlatformVersion" FlNull 4 in
  os_uname (os failing_world) = UnameFail 14 /\
  c_str (fl_method_call_get_name method_call) = "getPlatformVersion" /\
  exists s,
    get_platform_version failing_world =
      Some (FlMethodSuccessResponse (FlString s),
            add_events failing_world [EvUname (-1)]) /\
    exists w',
      nomade_native_plugin_handle_method_call 0%nat method_call failing_world =
        Some (tt, w') /\
      trace w' =
        (trace failing_world ++
           [EvUname (-1);
            EvRespond method_call (FlMethodSuccessResponse (FlString s))])%list /\
      responses (trace w') =
        (responses (trace failing_world) ++
           [(method_call, FlMethodSuccessResponse (FlString s))])%list.
Proof.
  split; [reflexivity|]. split; [reflexivity|].
  apply (uname_failure_still_answers 0%nat
           (mk_call "getPlatformVersion" FlNull 4) failing_world 14);
    reflexivity.
Defined.

(** C7: the query's answer is a function of the OS state.  Two runs in
    worlds that share the OS state, whatever else differs, return the same
    string; and a run leaves the OS state as it was, so the second of two
    runs in a row is such a run. *)
Theorem get_platform_version_deterministic (w1 w2 : world) :
  os w1 = os w2 ->
  exists s w1' w2',
    get_platform_version w1 = Some (FlMethodSuccessResponse (FlString s), w1') /\
    get_platform_version w2 = Some (FlMethodSuccessResponse (FlString s), w2') /\
    os w1' = os w1 /\
    (exists w1'',
        get_platform_version w1' =
          Some (FlMethodSuccessResponse (FlString s), w1'')).
Proof.
  intros Hos. exists (platform_version_string (os w1)).
  eexists _, _. split; [apply get_platform_version_run|].
  split; [rewrite Hos; apply get_platform_version_run|].
  split; [reflexivity|].
  eexists. rewrite get_platform_version_run. reflexivity.
Qed.

Lemma get_platform_version_deterministic_witness :
  os sample_world = os busy_world /\
  exists s w1' w2',
    get_platform_version sample_world =
      Some (FlMethodSuccessResponse (FlString s), w1') /\
    get_platform_version busy_world =
      Some (FlMethodSuccessResponse (FlString s), w2') /\
    os w1' = os sample_world /\
    (exists w1'',
        get_platform_version w1' =
          Some (FlMethodSuccessResponse (FlString s), w1'')).
Proof.
  split; [reflexivity|].
  apply (get_platform_version_deterministic sample_world busy_world).
  reflexivity.
Defined.

(** C9: when [uname] fails the query returns a success response all the
    same, never an error response: the return value -1 is dropped, the
    structure is still the zero-initialised one, its version field holds the
    empty C string, and the payload is "Linux " followed by it. *)
Theorem uname_failure_gives_bare_linux (w : world) (errno : Z) :
  os_uname (os w) = UnameFail errno ->
  get_platform_version w =
    Some (FlMethodSuccessResponse
            (FlString ("Linux " ++ c_str (version utsname_zero))),
          add_events w [EvUname (-1)]) /\
  c_str (version utsname_zero) = EmptyString /\
  "Linux " ++ c_str (version utsname_zero) = "Linux ".
Proof.
  intros Hos. split; [|split; reflexivity].
  rewrite get_platform_version_run.
  unfold platform_version_string.
  now rewrite (uname_result_fail _ _ _ Hos).
Qed.

Lemma uname_failure_gives_bare_linux_witness :
  os_uname (os failing_world) = UnameFail 14 /\
  get_platform_version failing_world =
    Some (FlMethodSuccessResponse
            (FlString ("Linux " ++ c_str (version utsname_zero))),
          add_events failing_world [EvUname (-1)]) /\
  c_str (version utsname_zero) = EmptyString /\
  "Linux " ++ c_str (version utsname_zero) = "Linux ".
Proof.
  split; [reflexivity|].
  apply (uname_failure_gives_bare_linux failing_world 14). reflexivity.
Defined.

(** C10: the response depends on the method name and the OS state only.
    Two calls with the same name, served in worlds with the same OS state,
    get the same response, whatever their arguments, their response handles
    and the plugin instances are. *)
Theorem dispatcher_ignores_arguments
    (self1 self2 : NomadeNativePlugin) (call1 call2 : FlMethodCall)
    (w1 w2 : world) :
  fl_method_call_get_name call1 = fl_method_call_get_name call2 ->
  os w1 = os w2 ->
  exists response w1' w2',
    nomade_native_plugin_handle_method_call self1 call1 w1 = Some (tt, w1') /\
    nomade_native_plugin_handle_method_call self2 call2 w2 = Some (tt, w2') /\
    responses (trace w1') =
      (responses (trace w1) ++ [(call1, response)])%list /\
    responses (trace w2') =
      (responses (trace w2) ++ [(call2, response)])%list.
Proof.
  unfold fl_method_call_get_name. intros Hname Hos.
  destruct (string_dec (c_str (call_name call1)) "getPlatformVersion")
    as [Heq|Hne].
  - exists (FlMethodSuccessResponse (FlString (platform_version_string (os w1)))).
    eexists _, _.
    split; [now apply handle_method_call_match|].
    split; [apply handle_method_call_match; now rewrite <- Hname|].
    simpl. rewrite !responses_app, Hos. split; reflexivity.
  - exists FlMethodNotImplementedResponse. eexists _, _.
    split; [now apply handle_method_call_no_match|].
    split; [apply handle_method_call_no_match; now rewrite <- Hname|].
    simpl. rewrite !responses_app. split; reflexivity.
Qed.

Lemma dispatcher_ignores_arguments_witness :
  let call1 := mk_call "getPlatformVersion" FlNull 5 in
  let call2 :=
    mk_call "getPlatformVersion" (FlMap [(FlString "verbose", FlBool true)]) 6 in
  fl_method_call_get_name call1 = fl_method_call_get_name call2 /\
  os sample_world = os busy_world /\
  exists response w1' w2',
    nomade_native_plugin_handle_method_call 0%nat call1 sample_world =
      Some (tt, w1') /\
    nomade_native_plugin_handle_method_call 1%nat call2 busy_world =
      Some (tt, w2') /\
    responses (trace w1') =
      (responses (trace sample_world) ++ [(call1, response)])%list /\
    responses (trace w2') =
      (responses (trace busy_world) ++ [(call2, response)])%list.
Proof.
  split; [reflexivity|]. split; [reflexivity|].
  apply (dispatcher_ignores_arguments 0%nat 1%nat
           (mk_call "getPlatformVersion" FlNull 5)
           (mk_call "getPlatformVersion"
              (FlMap [(FlString "verbose", FlBool true)]) 6)
           sample_world busy_world); reflexivity.
Defined.

(** ** Registration *)

(** C8: registering the plugin installs one method call handler, the
    dispatching callback, on the registrar's messenger under the channel name
    nomade_native with the standard method codec; every other channel is
    left as it was. *)
Theorem register_installs_one_callback
    (registrar : FlPluginRegistrar) (w : world) :
  let messenger := fl_plugin_registrar_get_messenger registrar in
  exists plugin w',
    nomade_native_plugin_register_with_registrar registrar w = Some (tt, w') /\
    channels w' =
      <[(messenger, "nomade_native") :=
          mk_entry FlStandardMethodCodec
            (Some (method_call_cb_ptr, plugin, g_object_unref_ptr))]>
        (channels w) /\
    installs (trace w') =
      (installs (trace w) ++
         [(messenger, "nomade_native", method_call_cb_ptr)])%list /\
    (forall channel method_call w0,
        call_handler method_call_cb_ptr channel method_call plugin w0 =
        nomade_native_plugin_handle_method_call plugin method_call w0).
Proof.
  intros messenger. exists (fresh (dom (objects w))). eexists.
  split; [apply register_with_registrar_run|].
  simpl. split; [reflexivity|].
  rewrite installs_app. simpl. split; reflexivity.
Qed.

(** ** Beyond the dispatcher: the callback, the host's calls, lifetimes *)

Section DispatchFacts.

Lemma names_platform_version_true method_call :
  names_platform_version method_call = true <->
  c_str (call_name method_call) = "getPlatformVersion".
Proof. apply String.eqb_eq. Qed.

Lemma names_platform_version_false method_call :
  names_platform_version method_call = false <->
  c_str (call_name method_call) <> "getPlatformVersion".
Proof. apply String.eqb_neq. Qed.

(** One run of the dispatcher. *)
Lemma handle_method_call_run self method_call w :
  nomade_native_plugin_handle_method_call self method_call w =
  Some (tt, add_events w (dispatch_events (os w) method_call)).
Proof.
  unfold dispatch_events, due_response.
  destruct (names_platform_version method_call) eqn:E.
  - apply names_platform_version_true in E.
    now apply handle_method_call_match.
  - apply names_platform_version_false in E.
    now apply handle_method_call_no_match.
Qed.

(** One run of the callback, whatever the channel and the user data. *)
Lemma method_call_cb_run channel method_call user_data w :
  method_call_cb channel method_call user_data w =
  Some (tt, add_events w (dispatch_events (os w) method_call)).
Proof. unfold method_call_cb. cbv zeta. apply handle_method_call_run. Qed.

Lemma responses_dispatch_events o method_call :
  responses (dispatch_events o method_call) =
  [(method_call, due_response o method_call)].
Proof.
  unfold dispatch_events.
  now destruct (names_platform_version method_call).
Qed.

Lemma uname_calls_dispatch_events o method_call :
  uname_calls (dispatch_events o method_call) =
  if names_platform_version method_call then 1%nat else 0%nat.
Proof.
  unfold dispatch_events.
  now destruct (names_platform_version method_call).
Qed.

Lemma logged_dispatch_events o method_call :
  logged (dispatch_events o method_call) = [].
Proof.
  unfold dispatch_events.
  now destruct (names_platform_version method_call).
Qed.

Lemma installs_dispatch_events o method_call :
  installs (dispatch_events o method_call) = [].
Proof.
  unfold dispatch_events.
  now destruct (names_platform_version method_call).
Qed.

Lemma length_append_string (a b : string) :
  String.length (a ++ b) = (String.length a + String.length b)%nat.
Proof.
  induction a as [|c a IH]; [reflexivity|].
  rewrite append_cons. simpl. now rewrite IH.
Qed.

Lemma c_str_length_le (mem : string) :
  (String.length (c_str mem) <= String.length mem)%nat.
Proof.
  induction mem as [|c rest IH]; simpl; [lia|].
  destruct (is_nul c); simpl; lia.
Qed.

(** A buffer that holds a terminator designates a strictly shorter string. *)
Lemma c_str_length_lt (mem : string) :
  nul_free mem = false ->
  (String.length (c_str mem) < String.length mem)%nat.
Proof.
  induction mem as [|c rest IH]; simpl; [discriminate|].
  destruct (is_nul c); simpl; [lia|].
  intros H. apply IH in H. lia.
Qed.

End DispatchFacts.

#[local] Hint Rewrite responses_dispatch_events uname_calls_dispatch_events
  logged_dispatch_events installs_dispatch_events : traces.

(** A run of [serve]: one dispatch after the other, all in the OS state the
    run started in. *)
Lemma serve_run channel user_data calls w :
  serve channel user_data calls w =
  Some (tt, add_events w
              (List.concat (List.map (dispatch_events (os w)) calls))).
Proof.
  revert w. induction calls as [|c rest IH]; intros w.
  - simpl. now rewrite add_events_nil.
  - simpl.
    rewrite (bind_some _ _ _ _ _ (method_call_cb_run channel c user_data w)).
    rewrite IH, add_events_app. reflexivity.
Qed.

Lemma responses_serve_events o calls :
  responses (List.concat (List.map (dispatch_events o) calls)) =
  List.map (fun c => (c, due_response o c)) calls.
Proof.
  induction calls as [|c rest IH]; simpl; [reflexivity|].
  autorewrite with traces. now rewrite IH.
Qed.

Lemma uname_calls_serve_events o calls :
  uname_calls (List.concat (List.map (dispatch_events o) calls)) =
  length (List.filter names_platform_version calls).
Proof.
  induction calls as [|c rest IH]; simpl; [reflexivity|].
  autorewrite with traces. rewrite IH.
  now destruct (names_platform_version c).
Qed.

(** X1: once the plugin is registered, a call routed through the handler the
    messenger holds for nomade_native is answered exactly once, with the
    version string for getPlatformVersion and with not-implemented for any
    other name, while the handler's user data is a live object. *)
Theorem registered_channel_answers
    (registrar : FlPluginRegistrar) (method_call : FlMethodCall) (w : world) :
  exists w' codec handler user_data notify w'',
    nomade_native_plugin_register_with_registrar registrar w = Some (tt, w') /\
    channels w' !! (registrar_messenger registrar, "nomade_native") =
      Some (mk_entry codec (Some (handler, user_data, notify))) /\
    call_handler handler
      (mk_channel (registrar_messenger registrar) "nomade_native" codec)
      method_call user_data w' = Some (tt, w'') /\
    responses (trace w'') =
      (responses (trace w) ++
         [(method_call, due_response (os w) method_call)])%list /\
    is_Some (objects w'' !! user_data).
Proof.
  eexists _, _, _, _, _, _.
  split; [apply register_with_registrar_run|].
  split; [apply lookup_insert_eq|].
  split; [apply method_call_cb_run|].
  simpl. autorewrite with traces. simpl. autorewrite with traces.
  split; [reflexivity|].
  rewrite lookup_insert_eq. eauto.
Qed.



(** X3: the reference taken for the handler is given back by the destroy
    notification registered with it.  After a first registration, running
    that notification on the handler's user data finalizes the plugin
    instance the registration created, and every plugin instance that
    existed before the registration still has the reference count it had. *)
Theorem register_then_release
    (registrar : FlPluginRegistrar) (w : world) :
  channels w !! (fl_plugin_registrar_get_messenger registrar, "nomade_native") =
    None ->
  exists w' codec handler user_data notify w'',
    nomade_native_plugin_register_with_registrar registrar w = Some (tt, w') /\
    channels w' !! (registrar_messenger registrar, "nomade_native") =
      Some (mk_entry codec (Some (handler, user_data, notify))) /\
    objects w !! user_data = None /\
    is_Some (objects w' !! user_data) /\
    call_destroy_notify notify user_data w' = Some (tt, w'') /\
    objects w'' !! user_data = None /\
    (forall o obj, objects w !! o = Some obj -> objects w'' !! o = Some obj).
Proof.
  intros _. eexists _, _, _, _, _, _.
  split; [apply register_with_registrar_run|].
  split; [apply lookup_insert_eq|].
  assert (Hfresh : objects w !! fresh (dom (objects w)) = None)
    by apply not_elem_of_dom, is_fresh.
  split; [exact Hfresh|]. simpl.
  split; [rewrite lookup_insert_eq; eauto|].
  split.
  - unfold call_destroy_notify. unfold_calls. simpl.
    rewrite lookup_insert_eq. simpl. reflexivity.
  - simpl. rewrite delete_insert_id by exact Hfresh.
    split; [exact Hfresh|]. intros o obj Ho. exact Ho.
Qed.

Lemma register_then_release_witness :
  channels busy_world !!
    (fl_plugin_registrar_get_messenger (mk_registrar 0%nat), "nomade_native") = None /\
  exists w' codec handler user_data notify w'',
    nomade_native_plugin_register_with_registrar (mk_registrar 0%nat) busy_world =
      Some (tt, w') /\
    channels w' !! (registrar_messenger (mk_registrar 0%nat), "nomade_native") =
      Some (mk_entry codec (Some (handler, user_data, notify))) /\
    objects busy_world !! user_data = None /\
    is_Some (objects w' !! user_data) /\
    call_destroy_notify notify user_data w' = Some (tt, w'') /\
    objects w'' !! user_data = None /\
    (forall o obj,
        objects busy_world !! o = Some obj -> objects w'' !! o = Some obj).
Proof.
  split; [reflexivity|].
  apply (register_then_release (mk_registrar 0%nat) busy_world). reflexivity.
Defined.

(** X4: when the user data is a live plugin instance, serving a call through
    the callback returns normally and keeps no state: what the host had seen
    before is still there, followed by at most two new events of which
    exactly one is a response, and the OS state, the channel table and every
    reference count, the instance's own included, are as they were. *)
Theorem method_call_cb_frame
    (channel : FlMethodChannel) (method_call : FlMethodCall) (user_data : nat)
    (instance : GObject) (w : world) :
  objects w !! user_data = Some instance ->
  g_type instance = nomade_native_plugin_get_type ->
  (0 < ref_count instance)%nat ->
  exists evs response w',
    method_call_cb channel method_call user_data w = Some (tt, w') /\
    trace w' = (trace w ++ evs)%list /\
    (length evs <= 2)%nat /\
    responses evs = [(method_call, response)] /\
    os w' = os w /\ channels w' = channels w /\ objects w' = objects w /\
    objects w' !! user_data = Some instance.
Proof.
  intros Hlive _ _.
  exists (dispatch_events (os w) method_call),
         (due_response (os w) method_call).
  eexists. split; [apply method_call_cb_run|]. simpl.
  autorewrite with traces.
  repeat split; try reflexivity; try exact Hlive.
  unfold dispatch_events. destruct (names_platform_version method_call); simpl; lia.
Qed.

Lemma method_call_cb_frame_witness :
  let channel := mk_channel 1%nat "nomade_native" FlStandardMethodCodec in
  let method_call := mk_call "getPlatformVersion" FlNull 11 in
  let instance := mk_gobject nomade_native_plugin_type 2 in
  objects crowded_world !! 0%nat = Some instance /\
  g_type instance = nomade_native_plugin_get_type /\
  (0 < ref_count instance)%nat /\
  exists evs response w',
    method_call_cb channel method_call 0%nat crowded_world = Some (tt, w') /\
    trace w' = (trace crowded_world ++ evs)%list /\
    (length evs <= 2)%nat /\
    responses evs = [(method_call, response)] /\
    os w' = os crowded_world /\ channels w' = channels crowded_world /\
    objects w' = objects crowded_world /\
    objects w' !! 0%nat = Some instance.
Proof.
  split; [reflexivity|]. split; [reflexivity|]. split; [simpl; lia|].
  apply (method_call_cb_frame
           (mk_channel 1%nat "nomade_native" FlStandardMethodCodec)
           (mk_call "getPlatformVersion" FlNull 11) 0%nat
           (mk_gobject nomade_native_plugin_type 2) crowded_world);
    [reflexivity | reflexivity | simpl; lia].
Defined.

(** X5: when the host passes a list of calls to the callback one after the
    other, every call is answered once and the answers come in the order of
    the calls; the operating system is asked once per getPlatformVersion
    call, no result being kept from one call to the next. *)
Theorem serve_answers_in_order
    (channel : FlMethodChannel) (user_data : nat) (calls : list FlMethodCall)
    (w : world) :
  exists w',
    serve channel user_data calls w = Some (tt, w') /\
    responses (trace w') =
      (responses (trace w) ++
         List.map (fun c => (c, due_response (os w) c)) calls)%list /\
    uname_calls (trace w') =
      (uname_calls (trace w) +
         length (List.filter names_platform_version calls))%nat /\
    os w' = os w /\ channels w' = channels w /\ objects w' = objects w.
Proof.
  eexists. split; [apply serve_run|]. simpl.
  rewrite responses_app, uname_calls_app.
  rewrite responses_serve_events, uname_calls_serve_events.
  repeat split; reflexivity.
Qed.

(** X6: in every OS state the string handed to Flutter is the string
    [g_strdup_printf] built, without loss: it holds no NUL character, so
    [fl_value_new_string] copies all of it, and it is never shorter than
    the six characters of "Linux ". *)
Theorem platform_version_payload_whole (w : world) :
  exists formatted w',
    format_string "Linux %s"
      [version (snd (uname_result (os w) utsname_zero))] = Some formatted /\
    get_platform_version w =
      Some (FlMethodSuccessResponse (FlString formatted), w') /\
    nul_free formatted = true /\
    (6 <= String.length formatted)%nat.
Proof.
  exists (platform_version_string (os w)). eexists.
  split; [apply format_string_linux|].
  split; [apply get_platform_version_run|].
  split; [apply nul_free_linux|].
  unfold platform_version_string. rewrite length_append_string. simpl. lia.
Qed.

(** X7: when the kernel's version field is a [char\[65\]] holding a
    terminator, the string returned has at most 70 characters: the 6 of
    "Linux " and at most 64 of the version. *)
Theorem platform_version_payload_bound (w : world) (kernel_uts : utsname) :
  os_uname (os w) = UnameOk kernel_uts ->
  String.length (version kernel_uts) = _UTSNAME_LENGTH ->
  nul_free (version kernel_uts) = false ->
  exists s w',
    get_platform_version w = Some (FlMethodSuccessResponse (FlString s), w') /\
    (String.length s <= 70)%nat.
Proof.
  intros Hos Hlen Hnul. exists (platform_version_string (os w)). eexists.
  split; [apply get_platform_version_run|].
  rewrite (platform_version_string_ok _ _ Hos), length_append_string.
  apply c_str_length_lt in Hnul. rewrite Hlen in Hnul.
  unfold _UTSNAME_LENGTH in Hnul. simpl. lia.
Qed.

Lemma platform_version_payload_bound_witness :
  os_uname (os crowded_world) = UnameOk ubuntu_uts /\
  String.length (version ubuntu_uts) = _UTSNAME_LENGTH /\
  nul_free (version ubuntu_uts) = false /\
  exists s w',
    get_platform_version crowded_world =
      Some (FlMethodSuccessResponse (FlString s), w') /\
    (String.length s <= 70)%nat.
Proof.
  split; [reflexivity|]. split; [reflexivity|]. split; [reflexivity|].
  apply (platform_version_payload_bound crowded_world ubuntu_uts); reflexivity.
Defined.

(** X8: of all the kernel reports, only the C string in the version field
    reaches the caller.  Two hosts that agree on it give the same response to
    calls of the same method name, however their system name, host name,
    release, machine and domain name differ. *)
Theorem other_fields_do_not_matter
    (self1 self2 : NomadeNativePlugin) (call1 call2 : FlMethodCall)
    (w1 w2 : world) (uts1 uts2 : utsname) :
  os_uname (os w1) = UnameOk uts1 ->
  os_uname (os w2) = UnameOk uts2 ->
  c_str (version uts1) = c_str (version uts2) ->
  c_str (call_name call1) = c_str (call_name call2) ->
  exists response w1' w2',
    nomade_native_plugin_handle_method_call self1 call1 w1 = Some (tt, w1') /\
    nomade_native_plugin_handle_method_call self2 call2 w2 = Some (tt, w2') /\
    responses (trace w1') =
      (responses (trace w1) ++ [(call1, response)])%list /\
    responses (trace w2') =
      (responses (trace w2) ++ [(call2, response)])%list.
Proof.
  intros Hos1 Hos2 Hver Hname.
  exists (due_response (os w1) call1). eexists _, _.
  split; [apply handle_method_call_run|].
  split; [apply handle_method_call_run|].
  simpl. autorewrite with traces. split; [reflexivity|].
  do 3 f_equal. unfold due_response, names_platform_version.
  rewrite Hname, (platform_version_string_ok _ _ Hos1),
    (platform_version_string_ok _ _ Hos2), Hver. reflexivity.
Qed.

Lemma other_fields_do_not_matter_witness :
  let w2 := mk_world (mk_os (UnameOk other_host_uts)) [] ∅ ∅ in
  let call1 := mk_call "getPlatformVersion" FlNull 8 in
  let call2 := mk_call "getPlatformVersion" FlNull 9 in
  os_uname (os sample_world) = UnameOk sample_uts /\
  os_uname (os w2) = UnameOk other_host_uts /\
  c_str (version sample_uts) = c_str (version other_host_uts) /\
  c_str (call_name call1) = c_str (call_name call2) /\
  exists response w1' w2',
    nomade_native_plugin_handle_method_call 0%nat call1 sample_world =
      Some (tt, w1') /\
    nomade_native_plugin_handle_method_call 0%nat call2 w2 = Some (tt, w2') /\
    responses (trace w1') =
      (responses (trace sample_world) ++ [(call1, response)])%list /\
    responses (trace w2') =
      (responses (trace w2) ++ [(call2, response)])%list.
Proof.
  split; [reflexivity|]. split; [reflexivity|]. split; [reflexivity|].
  split; [reflexivity|].
  apply (other_fields_do_not_matter 0%nat 0%nat
           (mk_call "getPlatformVersion" FlNull 8)
           (mk_call "getPlatformVersion" FlNull 9)
           sample_world (mk_world (mk_os (UnameOk other_host_uts)) [] ∅ ∅)
           sample_uts other_host_uts); reflexivity.
Defined.

(** X9: the registration touches nothing but its own channel and its own
    instance: every other channel name, and the same name on every other
    messenger, keeps its entry; no response is sent, the operating system is
    not queried, nothing is logged and the OS state is unchanged. *)
Theorem register_frame (registrar : FlPluginRegistrar) (w : world) :
  exists w',
    nomade_native_plugin_register_with_registrar registrar w = Some (tt, w') /\
    (forall key,
        key <> (fl_plugin_registrar_get_messenger registrar, "nomade_native") ->
        channels w' !! key = channels w !! key) /\
    responses (trace w') = responses (trace w) /\
    uname_calls (trace w') = uname_calls (trace w) /\
    logged (trace w') = logged (trace w) /\
    os w' = os w.
Proof.
  eexists. split; [apply register_with_registrar_run|]. simpl.
  split.
  - intros key Hkey. apply lookup_insert_ne.
    unfold fl_plugin_registrar_get_messenger in Hkey. congruence.
  - autorewrite with traces. simpl. autorewrite with traces.
    repeat split; lia.
Qed.

(** X10: nothing guards against a second registration.  Registering again
    with the same registrar succeeds, creates a second, different plugin
    instance and installs the callback once more; the channel then has a
    single handler, whose user data is the second instance. *)
Theorem register_twice (registrar : FlPluginRegistrar) (w : world) :
  exists plugin1 plugin2 w1 w2,
    nomade_native_plugin_register_with_registrar registrar w = Some (tt, w1) /\
    nomade_native_plugin_register_with_registrar registrar w1 = Some (tt, w2) /\
    channels w1 !! (registrar_messenger registrar, "nomade_native") =
      Some (mk_entry FlStandardMethodCodec
              (Some (method_call_cb_ptr, plugin1, g_object_unref_ptr))) /\
    channels w2 !! (registrar_messenger registrar, "nomade_native") =
      Some (mk_entry FlStandardMethodCodec
              (Some (method_call_cb_ptr, plugin2, g_object_unref_ptr))) /\
    plugin1 <> plugin2 /\
    objects w2 !! plugin2 = Some (mk_gobject nomade_native_plugin_type 1) /\
    dom (channels w2) = dom (channels w1) /\
    installs (trace w2) =
      (installs (trace w) ++
         [(registrar_messenger registrar, "nomade_native", method_call_cb_ptr);
          (registrar_messenger registrar, "nomade_native", method_call_cb_ptr)])%list.
Proof.
  eexists _, _, _, _.
  split; [apply register_with_registrar_run|].
  split; [apply register_with_registrar_run|]. simpl.
  split; [apply lookup_insert_eq|].
  split; [apply lookup_insert_eq|].
  split.
  - intros Heq.
    pose proof (is_fresh (dom (<[fresh (dom (objects w)) :=
                  mk_gobject nomade_native_plugin_type 1]> (objects w)))) as Hfresh.
    apply Hfresh. rewrite <- Heq. rewrite dom_insert_L. set_solver.
  - split; [apply lookup_insert_eq|].
    split.
    + rewrite insert_insert_eq, !dom_insert_L. reflexivity.
    + autorewrite with traces. simpl. rewrite <- app_assoc. reflexivity.
Qed.

(** X11: serving calls neither leaks nor frees the plugin.  After the
    registration and any number of calls passed to the callback with the
    registered user data, each answered once, the instance still has exactly
    the one reference the handler holds and the channel table is the one the
    registration left. *)
Theorem plugin_survives_calls
    (registrar : FlPluginRegistrar) (calls : list FlMethodCall) (w : world) :
  exists plugin w' w'',
    nomade_native_plugin_register_with_registrar registrar w = Some (tt, w') /\
    channels w' !! (registrar_messenger registrar, "nomade_native") =
      Some (mk_entry FlStandardMethodCodec
              (Some (method_call_cb_ptr, plugin, g_object_unref_ptr))) /\
    serve (mk_channel (registrar_messenger registrar) "nomade_native"
             FlStandardMethodCodec) plugin calls w' = Some (tt, w'') /\
    objects w'' !! plugin = Some (mk_gobject nomade_native_plugin_type 1) /\
    channels w'' = channels w' /\
    length (responses (trace w'')) =
      (length (responses (trace w)) + length calls)%nat.
Proof.
  exists (fresh (dom (objects w))). eexists _, _.
  split; [apply register_with_registrar_run|].
  split; [apply lookup_insert_eq|].
  split; [apply serve_run|]. simpl.
  split; [apply lookup_insert_eq|].
  split; [reflexivity|].
  rewrite !responses_app, responses_serve_events. simpl.
  rewrite app_nil_r, length_app, length_map. reflexivity.
Qed.
